(** * SmartChat (newchatbot.py): intent classification, response selection
    and conversation logging.

    A shallow embedding of [src/newchatbot.py].  The functions of the script
    are Rocq functions with the same names.  Exceptions, [st.stop()] and the
    messages shown with [st.error] are explicit in the [script] monad; the
    global random generator is a natural number drawn by the caller; the
    intents file, the [st.cache_resource] cache and the history file are
    explicit arguments.  scikit-learn, [str.lower] and pandas' column typing
    are outside the script and enter as interfaces. *)

From Stdlib Require Import List String Ascii Bool Arith Lia.
Import ListNotations.
Local Open Scope string_scope.
Local Open Scope list_scope.

(* ------------------------------------------------------------------ *)
(** ** Exceptions and the script monad *)

(** The exceptions the modelled code can meet, all subclasses of Python's
    [Exception]; each carries the text [str(e)] yields. *)
Inductive exn : Type :=
| IndexError (msg : string)
| LibraryError (msg : string).   (* ValueError, NotFittedError, ... of a library *)

Definition str (e : exn) : string :=
  match e with
  | IndexError msg => msg
  | LibraryError msg => msg
  end.

(** A library call either returns or raises. *)
Definition result (A : Type) : Type := (exn + A)%type.

(** How a piece of the Streamlit script ends: it returns, it is halted by
    [st.stop()] (a [StopException], which is not an [Exception]), or an
    exception leaves it. *)
Inductive outcome (A : Type) : Type :=
| Returned (a : A)
| Stopped
| Uncaught (e : exn).
Arguments Returned {A} a.
Arguments Stopped {A}.
Arguments Uncaught {A} e.

(** A script computation: the [st.error] messages it displays, in order,
    and its outcome. *)
Definition script (A : Type) : Type := (list string * outcome A)%type.

Definition ret {A} (a : A) : script A := ([], Returned a).

Definition bind {A B} (m : script A) (k : A -> script B) : script B :=
  match m with
  | (shown, Returned a) => let (shown', o) := k a in (shown ++ shown', o)
  | (shown, Stopped) => (shown, Stopped)
  | (shown, Uncaught e) => (shown, Uncaught e)
  end.

Notation "x <- m ;; k" := (bind m (fun x => k))
  (at level 61, m at next level, right associativity).
Notation "m ;;; k" := (bind m (fun _ => k))
  (at level 61, right associativity).

Definition st_error (msg : string) : script unit := ([msg], Returned tt).
Definition st_stop {A} : script A := ([], Stopped).

Definition lift {A} (r : result A) : script A :=
  match r with
  | inr a => ret a
  | inl e => ([], Uncaught e)
  end.

(** [try: body except Exception as e: handler e].  [st.stop()] is not caught. *)
Definition try_except {A} (body : script A) (handler : exn -> script A) : script A :=
  match body with
  | (shown, Uncaught e) => let (shown', o) := handler e in (shown ++ shown', o)
  | other => other
  end.

(* ------------------------------------------------------------------ *)
(** ** Data model *)

(** One element of the [intents] list of intents.json. *)
Record IntentRecord : Type := mkIntent {
  tag : string;
  patterns : list string;
  responses : list string
}.

(** [sequence[0]]. *)
Definition index0 {A} (l : list A) : result A :=
  match l with
  | x :: _ => inr x
  | [] => inl (IndexError "index 0 is out of bounds")
  end.

(** [random.choice(seq)]: [seq[randbelow(len(seq))]], an [IndexError] on an
    empty sequence.  [r] is the generator's draw; the index is [r] reduced
    below the length. *)
Definition choice {A} (r : nat) (seq : list A) : result A :=
  match seq with
  | [] => inl (IndexError "Cannot choose from an empty sequence")
  | x :: _ => inr (nth (r mod List.length seq) seq x)
  end.

(* ------------------------------------------------------------------ *)
(** ** Interfaces of the libraries the script calls *)

(** [str.lower()]. *)
Class StrOps : Type := { lower : string -> string }.

(** scikit-learn as the script uses it: [TfidfVectorizer(tokenizer=
    nltk.word_tokenize)] and [LogisticRegression(random_state=0,
    max_iter=1000)]. *)
Class Sklearn : Type := {
  Vectorizer : Type;      (* a fitted TfidfVectorizer *)
  Matrix : Type;          (* the sparse TF-IDF matrix, one row per text *)
  Classifier : Type;      (* a fitted LogisticRegression *)
  fit_transform : list string -> result (Vectorizer * Matrix);
  transform : Vectorizer -> list string -> result Matrix;
  fit : Matrix -> list string -> result Classifier;
  predict : Classifier -> Matrix -> result (list string)
}.

(* ------------------------------------------------------------------ *)
(** ** Response selection and [chatbot_response] *)

Definition fallback_responses : list string :=
  [ "I'm not sure I understand. Could you rephrase?";
    "Sorry, I didn't catch that. Could you explain further?";
    "I'm still learning. Please provide more details." ].

Definition apology : string := "Oops! Something went wrong.".

(** What the handler of line 101 displays for the exception [e]. *)
Definition error_shown (e : exn) : list string :=
  [ ("Error generating response: " ++ str e)%string ].

(** The loop of lines 93-95: the first record whose tag is the predicted one
    answers; [None] when the loop ends without returning. *)
Fixpoint first_loop (r : nat) (predicted : string) (intents : list IntentRecord)
  : option (result string) :=
  match intents with
  | [] => None
  | intent :: rest =>
      if (tag intent =? predicted)%string
      then Some (choice r (responses intent))
      else first_loop r predicted rest
  end.

(** Lines 93-99.  A record is a non-empty dict, so [if fallback] tests only
    whether [next] found one. *)
Definition select (r : nat) (intents : list IntentRecord) (predicted : string)
  : result string :=
  match first_loop r predicted intents with
  | Some answer => answer
  | None =>
      match find (fun intent => (tag intent =? "fallback")%string) intents with
      | Some fallback => choice r (responses fallback)
      | None => choice r fallback_responses
      end
  end.

(** The test both searches of [select] apply to a record. *)
Definition has_tag (t : string) (intent : IntentRecord) : bool :=
  (tag intent =? t)%string.

Section Prediction.
Context {so : StrOps} {sk : Sklearn}.

(** Lines 90-91: [clf.predict(vectorizer.transform([user_input.lower()]))[0]]. *)
Definition predicted_tag (vectorizer : Vectorizer) (clf : Classifier)
           (user_input : string) : result string :=
  match transform vectorizer [lower user_input] with
  | inl e => inl e
  | inr input_vec =>
      match predict clf input_vec with
      | inl e => inl e
      | inr tags => index0 tags
      end
  end.

(** Lines 82-102. *)
Definition chatbot_response (vectorizer : Vectorizer) (clf : Classifier)
           (intents : list IntentRecord) (r : nat) (user_input : string)
  : script string :=
  try_except
    (t <- lift (predicted_tag vectorizer clf user_input) ;;
     lift (select r intents t))
    (fun e =>
       st_error ("Error generating response: " ++ str e)%string ;;;
       ret apology).

(* ------------------------------------------------------------------ *)
(** ** Start-up: [load_intents] and [initialize_models] *)

(** What [open] and [json.load] find at intents.json.  A document is a JSON
    object whose [intents] key, when present, holds a list of records. *)
Inductive intents_file : Type :=
| FileMissing
| InvalidJSON
| Document (intents : option (list IntentRecord)).

(** Lines 37-51.  The value returned is the list under the key [intents]. *)
Definition load_intents (file : intents_file) : script (list IntentRecord) :=
  match file with
  | Document (Some (intent :: rest)) => ret (intent :: rest)
  | Document _ =>
      st_error "The 'intents.json' file is empty or improperly formatted." ;;;
      st_stop
  | FileMissing =>
      st_error "The 'intents.json' file is missing. Make sure it exists in the project directory." ;;;
      ret []
  | InvalidJSON =>
      st_error "Invalid JSON format in 'intents.json'. Please fix the file." ;;;
      ret []
  end.

(** One iteration of the loop of lines 63-65 on the pair (tags, patterns). *)
Definition training_step (acc : list string * list string) (intent : IntentRecord)
  : list string * list string :=
  (fst acc ++ repeat (tag intent) (List.length (patterns intent)),
   snd acc ++ map lower (patterns intent)).

(** Lines 61-65: the lists [tags] and [patterns] after the loop. *)
Definition training_set (intents : list IntentRecord) : list string * list string :=
  fold_left training_step intents ([], []).

Definition is_empty {A} (l : list A) : bool :=
  match l with [] => true | _ => false end.

(** What the guard of lines 67-69 displays. *)
Definition no_training_data : list string :=
  [ "No training data found in 'intents.json'." ].

(** Lines 61-75, the body of [initialize_models]. *)
Definition fit_models (intents : list IntentRecord) : script (Vectorizer * Classifier) :=
  let (tags, texts) := training_set intents in
  if is_empty tags || is_empty texts then
    st_error "No training data found in 'intents.json'." ;;;
    st_stop
  else
    fitted <- lift (fit_transform texts) ;;
    model <- lift (fit (snd fitted) tags) ;;
    ret (fst fitted, model).

(** [initialize_models] under [@st.cache_resource]: its one argument is
    named [_intents], which keeps it out of the cache key, so a cached pair
    answers every later call and the body runs only on an empty cache. *)
Definition initialize_models (cache : option (Vectorizer * Classifier))
           (intents : list IntentRecord) : script (Vectorizer * Classifier) :=
  match cache with
  | Some models => ret models
  | None => fit_models intents
  end.

(** The cache after the call: a pair is stored when the body returned one. *)
Definition cache_after (cache : option (Vectorizer * Classifier))
           (intents : list IntentRecord) : option (Vectorizer * Classifier) :=
  match cache with
  | Some models => Some models
  | None =>
      match fit_models intents with
      | (_, Returned models) => Some models
      | _ => None
      end
  end.

(** Lines 53 and 77: the module-level start of every run of the script. *)
Definition startup (cache : option (Vectorizer * Classifier)) (file : intents_file)
  : script (list IntentRecord * (Vectorizer * Classifier)) :=
  intents <- load_intents file ;;
  models <- initialize_models cache intents ;;
  ret (intents, models).

(** One run of the script that answers [user_input] (line 148), from the
    top of the module. *)
Definition run (cache : option (Vectorizer * Classifier)) (file : intents_file)
           (r : nat) (user_input : string) : script string :=
  started <- startup cache file ;;
  chatbot_response (fst (snd started)) (snd (snd started)) (fst started) r user_input.

(** The cache a run leaves behind. *)
Definition cache_of_run (cache : option (Vectorizer * Classifier)) (file : intents_file)
  : option (Vectorizer * Classifier) :=
  match load_intents file with
  | (_, Returned intents) => cache_after cache intents
  | _ => cache
  end.

(** The records a source offers for training. *)
Definition source_records (file : intents_file) : list IntentRecord :=
  match file with
  | Document (Some intents) => intents
  | _ => []
  end.

(** The models came out of [fit_transform] and [fit] on these texts and tags. *)
Definition fitted_on (models : Vectorizer * Classifier) (texts tags : list string) : Prop :=
  exists X, fit_transform texts = inr (fst models, X) /\ fit X tags = inr (snd models).

(** The models were fit on the training set of some catalog, and that set
    has at least one example. *)
Definition well_fitted (models : Vectorizer * Classifier) : Prop :=
  exists intents,
    fst (training_set intents) <> [] /\
    fitted_on models (snd (training_set intents)) (fst (training_set intents)).

(** The training examples in the words of the specification: every pattern
    of every record, lower-cased, paired with the record's tag. *)
Definition training_pairs (intents : list IntentRecord) : list (string * string) :=
  flat_map (fun intent => map (fun p => (lower p, tag intent)) (patterns intent)) intents.

(** The cache of a process after the runs that read [files], oldest first;
    a process starts with an empty cache. *)
Definition process_cache (files : list intents_file) : option (Vectorizer * Classifier) :=
  fold_left cache_of_run files None.

Definition cache_ok (cache : option (Vectorizer * Classifier)) : Prop :=
  match cache with
  | Some models => well_fitted models
  | None => True
  end.


End Prediction.

(* ------------------------------------------------------------------ *)
(** ** The conversation log: [save_conversation] *)

(** A data row of chat_history.csv, the three text fields under the header
    line [User,Response,Timestamp].  The file is written only by
    [to_csv(index=False)] on a frame with these columns, so the header is
    fixed; CSV quoting is taken to be lossless on the fields. *)
Record Turn : Type := mkTurn {
  User : string;
  Response : string;
  Timestamp : string
}.

(** The history file: [None] when [os.path.exists] is false. *)
Definition history_file : Type := option (list Turn).

(** A cell of a pandas frame: a Python string, a missing value, or a value
    of a numeric or boolean dtype, kept as the text [to_csv] writes for it. *)
Inductive cell : Type :=
| Str (s : string)
| NaN
| Typed (written : string).

Definition Row : Type := (cell * cell * cell)%type.
Definition DataFrame : Type := list Row.

(** The fields [pd.read_csv] reads as missing under its default arguments. *)
Definition na_values : list string :=
  [ ""; "#N/A"; "#N/A N/A"; "#NA"; "-1.#IND"; "-1.#QNAN"; "-NaN"; "-nan";
    "1.#IND"; "1.#QNAN"; "<NA>"; "N/A"; "NA"; "NULL"; "NaN"; "None";
    "n/a"; "nan"; "null" ].

Definition is_na (field : string) : bool :=
  existsb (String.eqb field) na_values.

(** pandas' dtype inference for one column of a CSV file.  [retype has_na
    fields], on the fields of the column that are not missing and whether
    some are, is [None] when the column keeps its texts (dtype object) and
    [Some f] when it becomes numeric or boolean, [f field] being the text
    written back for the value read from [field]. *)
Class Pandas : Type := {
  retype : bool -> list string -> option (string -> string)
}.

(** [to_csv] of one cell, with the default [na_rep] (the empty field). *)
Definition written_as (c : cell) : string :=
  match c with
  | Str s => s
  | NaN => ""
  | Typed w => w
  end.

Definition to_csv (df : DataFrame) : list Turn :=
  map (fun row : Row =>
         let '(u, a, t) := row in
         mkTurn (written_as u) (written_as a) (written_as t)) df.

Section History.
Context {pd : Pandas}.

Definition read_column (col : list string) : list cell :=
  match retype (existsb is_na col) (filter (fun s => negb (is_na s)) col) with
  | Some f => map (fun s => if is_na s then NaN else Typed (f s)) col
  | None => map (fun s => if is_na s then NaN else Str s) col
  end.

(** [pd.read_csv(HISTORY_FILE)]. *)
Definition read_csv (rows : list Turn) : DataFrame :=
  combine (combine (read_column (map User rows))
                   (read_column (map Response rows)))
          (read_column (map Timestamp rows)).

(** Lines 107-120.  [timestamp] is [datetime.datetime.now().isoformat()]. *)
Definition save_conversation (timestamp : string) (user_input response : string)
           (file : history_file) : history_file :=
  let new_entry : DataFrame := [ (Str user_input, Str response, Str timestamp) ] in
  let updated_df :=
    match file with
    | Some rows => read_csv rows ++ new_entry     (* pd.concat *)
    | None => new_entry
    end in
  Some (to_csv updated_df).

(** Lines 167-168: the frame the history page shows. *)
Definition display_chat_history (file : history_file) : option DataFrame :=
  option_map read_csv file.

End History.

(* ------------------------------------------------------------------ *)
(** ** The session and the pages: [chat_interface], [clear_chat_history], [main] *)


(** The record [select] takes its answer from: the first one with the
    predicted tag, else the first one tagged "fallback". *)
Definition answering (intents : list IntentRecord) (predicted : string)
  : option IntentRecord :=
  match find (has_tag predicted) intents with
  | Some rcd => Some rcd
  | None => find (has_tag "fallback") intents
  end.







Section Pages.
Context {so : StrOps} {sk : Sklearn} {pd : Pandas}.

(** Line 176: the count under the history table. *)
Definition total_conversations (file : history_file) : option nat :=
  option_map (fun df : DataFrame => List.length df) (display_chat_history file).







End Pages.

(* ------------------------------------------------------------------ *)
(** ** Instances for running the definitions *)

(** [str.lower] on ASCII text. *)
Definition lower_ascii (c : ascii) : ascii :=
  let n := nat_of_ascii c in
  if Nat.leb 65 n && Nat.leb n 90 then ascii_of_nat (n + 32) else c.

Fixpoint lower_string (s : string) : string :=
  match s with
  | EmptyString => EmptyString
  | String c rest => String (lower_ascii c) (lower_string rest)
  end.

Definition ascii_ops : StrOps := {| lower := lower_string |}.

(** A classifier by recall: a text is its own feature row, and [predict]
    gives the tag of the first training text equal to the input, the first
    training tag when there is none. *)
Definition recall (clf : list (string * string)) (text : string) : string :=
  match find (fun p => (fst p =? text)%string) clf with
  | Some p => snd p
  | None => match clf with p :: _ => snd p | [] => "" end
  end.

Definition recall_sklearn : Sklearn := {|
  Vectorizer := unit;
  Matrix := list string;
  Classifier := list (string * string);
  fit_transform := fun texts => inr (tt, texts);
  transform := fun _ texts => inr texts;
  fit := fun X tags => inr (combine X tags);
  predict := fun clf X => inr (map (recall clf) X)
|}.

(** A library whose [transform] always raises. *)
Definition failing_sklearn : Sklearn := {|
  Vectorizer := unit;
  Matrix := unit;
  Classifier := unit;
  fit_transform := fun _ => inr (tt, tt);
  transform := fun _ _ => inl (LibraryError "transform failed");
  fit := fun _ _ => inr tt;
  predict := fun _ _ => inr []
|}.

(** No column is numeric or boolean. *)
Definition text_columns : Pandas := {| retype := fun _ _ => None |}.

(** The catalog of the scenario of the specification. *)
Definition scenario : list IntentRecord :=
  [ mkIntent "greeting" ["hi"; "hello"] ["Hey there!"];
    mkIntent "fallback" ["??"] ["I don't understand."] ].



Definition blank_response : list IntentRecord :=
  [ mkIntent "greeting" ["hi"; "hello"] [""];
    mkIntent "fallback" ["??"] ["I don't understand."] ].


Definition repeated_tag : list IntentRecord :=
  [ mkIntent "greeting" ["hi"] ["Hey there!"];
    mkIntent "greeting" ["hello"] ["Good day."] ].

Definition no_patterns : list IntentRecord :=
  [ mkIntent "greeting" [] ["Hey there!"];
    mkIntent "fallback" [] ["I don't understand."] ].

(** A library whose [fit] rejects every training set, as
    [LogisticRegression.fit] does for a single class. *)
Definition failing_fit_sklearn : Sklearn := {|
  Vectorizer := unit;
  Matrix := list string;
  Classifier := unit;
  fit_transform := fun texts => inr (tt, texts);
  transform := fun _ texts => inr texts;
  fit := fun _ _ => inl (LibraryError "This solver needs samples of at least 2 classes");
  predict := fun _ _ => inr []
|}.

(** A one-class catalog. *)
Definition one_class : list IntentRecord :=
  [ mkIntent "greeting" ["hi"; "hello"] ["Hey there!"] ].


(* ------------------------------------------------------------------ *)
(** * Properties *)

(** ** The script monad *)

Lemma bind_returned {A B} (m : script A) (k : A -> script B) shown (b : B) :
  bind m k = (shown, Returned b) ->
  exists s1 a s2, m = (s1, Returned a) /\ k a = (s2, Returned b) /\ shown = s1 ++ s2.
Proof.
  destruct m as [s1 [a| |e]]; simpl; try discriminate.
  destruct (k a) as [s2 o] eqn:Hk. intros H. inversion H; subst.
  exists s1, a, s2. auto.
Qed.

Lemma bind_stopped {A B} (m : script A) (k : A -> script B) shown :
  m = (shown, Stopped) -> bind m k = (shown, Stopped).
Proof. intros ->. reflexivity. Qed.

(** ** [random.choice] *)

Lemma choice_In {A} (r : nat) (seq : list A) (x : A) :
  choice r seq = inr x -> In x seq.
Proof.
  destruct seq as [|y rest]; [discriminate|]. intros H.
  assert (Hx : x = nth (r mod List.length (y :: rest)) (y :: rest) y).
  { change (inr (nth (r mod List.length (y :: rest)) (y :: rest) y) = inr x :> result A) in H.
    congruence. }
  rewrite Hx. apply nth_In, Nat.mod_upper_bound. discriminate.
Qed.

Lemma choice_nonempty {A} (r : nat) (seq : list A) :
  seq <> [] -> exists x, choice r seq = inr x /\ In x seq.
Proof.
  intros Hne. destruct seq as [|y rest] eqn:E; [contradiction|].
  rewrite <- E. destruct (choice r seq) as [e|x] eqn:Hc.
  - subst seq. discriminate.
  - exists x. split; [reflexivity|]. eapply choice_In; eauto.
Qed.

Lemma choice_empty {A} (r : nat) :
  @choice A r [] = inl (IndexError "Cannot choose from an empty sequence").
Proof. reflexivity. Qed.

(** Every member of the sequence is the choice of some draw. *)
Lemma choice_reaches {A} (seq : list A) (x : A) :
  In x seq -> exists r, choice r seq = inr x.
Proof.
  intros Hin. destruct (In_nth seq x x Hin) as [n [Hn Hnth]].
  exists n. destruct seq as [|y rest]; [inversion Hin|].
  unfold choice. rewrite Nat.mod_small by exact Hn.
  f_equal. rewrite <- Hnth. apply nth_indep. exact Hn.
Qed.

(** ** The first loop and [select] *)

(** The loop of lines 93-95 answers from the first record with the tag. *)
Lemma first_loop_find (r : nat) (t : string) (intents : list IntentRecord) :
  first_loop r t intents =
  option_map (fun intent => choice r (responses intent)) (find (has_tag t) intents).
Proof.
  induction intents as [|i rest IH]; simpl; [reflexivity|].
  unfold has_tag at 1. destruct (tag i =? t)%string; [reflexivity|exact IH].
Qed.


(** With unique tags every record is the first to carry its tag. *)
Lemma unique_tag_first (intents : list IntentRecord) (rcd : IntentRecord) :
  NoDup (map tag intents) -> In rcd intents ->
  find (has_tag (tag rcd)) intents = Some rcd.
Proof.
  induction intents as [|i rest IH]; simpl; intros Hnd Hin; [contradiction|].
  inversion Hnd as [|? ? Hnotin Hnd']; subst.
  unfold has_tag at 1. destruct (tag i =? tag rcd)%string eqn:E.
  - destruct Hin as [->|Hin]; [reflexivity|].
    apply String.eqb_eq in E. exfalso. apply Hnotin. rewrite E.
    apply in_map. exact Hin.
  - destruct Hin as [->|Hin].
    + rewrite String.eqb_refl in E. discriminate.
    + apply IH; assumption.
Qed.

Lemma select_first (r : nat) (intents : list IntentRecord) (t : string) (rcd : IntentRecord) :
  find (has_tag t) intents = Some rcd ->
  select r intents t = choice r (responses rcd).
Proof.
  intros H. unfold select. rewrite first_loop_find, H. reflexivity.
Qed.

Lemma select_fall_through (r : nat) (intents : list IntentRecord) (t : string) :
  find (has_tag t) intents = None ->
  select r intents t =
  match find (has_tag "fallback") intents with
  | Some fallback => choice r (responses fallback)
  | None => choice r fallback_responses
  end.
Proof.
  intros H. unfold select. rewrite first_loop_find, H. reflexivity.
Qed.

(** Whatever [select] returns is a response of the catalog or a built-in reply. *)
Lemma select_In (r : nat) (intents : list IntentRecord) (t s : string) :
  select r intents t = inr s ->
  (exists intent, In intent intents /\ In s (responses intent)) \/ In s fallback_responses.
Proof.
  destruct (find (has_tag t) intents) as [rcd|] eqn:E.
  - rewrite (select_first r intents t rcd E). intros Hc. left. exists rcd.
    split; [exact (proj1 (find_some _ _ E)) | exact (choice_In _ _ _ Hc)].
  - rewrite (select_fall_through r intents t E).
    destruct (find (has_tag "fallback") intents) as [fb|] eqn:F; intros Hc.
    + left. exists fb. split; [exact (proj1 (find_some _ _ F)) | exact (choice_In _ _ _ Hc)].
    + right. exact (choice_In _ _ _ Hc).
Qed.

(** ** C1: selection for a tag of the catalog *)


(** A later record with a repeated tag never answers. *)
Lemma select_repeated_tag (r : nat) :
  select r repeated_tag "greeting" = inr "Hey there!" /\
  In (mkIntent "greeting" ["hello"] ["Good day."]) repeated_tag /\
  ~ In "Hey there!" ["Good day."].
Proof.
  split; [|split].
  - unfold select, repeated_tag, first_loop. simpl String.eqb. cbv iota.
    unfold choice, responses. rewrite Nat.mod_1_r. reflexivity.
  - right. left. reflexivity.
  - intros [H|[]]. discriminate H.
Qed.



(** The same for every record of a catalog whose tags are unique, and every
    response of the record is the selection of some draw. *)
Lemma select_unique_tags (intents : list IntentRecord) (rcd : IntentRecord) :
  NoDup (map tag intents) -> In rcd intents -> responses rcd <> [] ->
  (forall r, exists s, select r intents (tag rcd) = inr s /\ In s (responses rcd)) /\
  (forall s, In s (responses rcd) -> exists r, select r intents (tag rcd) = inr s).
Proof.
  intros Hnd Hin Hne.
  pose proof (unique_tag_first intents rcd Hnd Hin) as Hfirst.
  split.
  - intros r. rewrite (select_first r intents (tag rcd) rcd Hfirst).
    apply choice_nonempty. exact Hne.
  - intros s Hs. destruct (choice_reaches _ _ Hs) as [r Hr].
    exists r. rewrite (select_first r intents (tag rcd) rcd Hfirst). exact Hr.
Qed.

(** ** C2: selection for a tag outside the catalog *)




(** ** C3: [chatbot_response] always returns *)

Section Responses.
Context {so : StrOps} {sk : Sklearn}.

(** The three ways through [chatbot_response]. *)
Lemma chatbot_response_cases (vectorizer : Vectorizer) (clf : Classifier)
      (intents : list IntentRecord) (r : nat) (user_input : string) :
  chatbot_response vectorizer clf intents r user_input =
  match predicted_tag vectorizer clf user_input with
  | inl e => (error_shown e, Returned apology)
  | inr t =>
      match select r intents t with
      | inl e => (error_shown e, Returned apology)
      | inr s => ([], Returned s)
      end
  end.
Proof.
  unfold chatbot_response.
  destruct (predicted_tag vectorizer clf user_input) as [e|t]; simpl; [reflexivity|].
  destruct (select r intents t) as [e|s]; reflexivity.
Qed.

(** The reply to an input classified [t], on a one-record catalog whose only
    response is the empty string, is the empty string: under any library. *)
Lemma chatbot_response_blank (vectorizer : Vectorizer) (clf : Classifier)
      (r : nat) (user_input t : string) :
  predicted_tag vectorizer clf user_input = inr t ->
  chatbot_response vectorizer clf [mkIntent t [user_input] [""]] r user_input
  = ([], Returned "").
Proof.
  intros Hp. rewrite chatbot_response_cases, Hp.
  unfold select, first_loop. simpl tag. rewrite String.eqb_refl.
  unfold choice, responses. rewrite Nat.mod_1_r. reflexivity.
Qed.

(** C3, amended: for every input string, [chatbot_response] returns a
    string and lets no exception out.  The string returned is the apology,
    one of the three built-in replies or a response of some record of the
    catalog; an exception raised by vectorization, prediction or selection
    is shown with [st.error] and mapped to the apology; and the string
    returned is non-empty whenever no record lists the empty string among
    its responses. *)
Theorem chatbot_response_returns (vectorizer : Vectorizer) (clf : Classifier)
        (intents : list IntentRecord) (r : nat) (user_input : string) :
  exists shown s,
    chatbot_response vectorizer clf intents r user_input = (shown, Returned s) /\
    (s = apology \/ In s fallback_responses \/
     exists intent, In intent intents /\ In s (responses intent)) /\
    (forall e,
        predicted_tag vectorizer clf user_input = inl e \/
        (exists t, predicted_tag vectorizer clf user_input = inr t /\
                   select r intents t = inl e) ->
        shown = error_shown e /\ s = apology) /\
    ((forall intent, In intent intents -> ~ In "" (responses intent)) -> s <> "").
Proof.
  rewrite chatbot_response_cases.
  destruct (predicted_tag vectorizer clf user_input) as [e|t] eqn:Hp.
  - exists (error_shown e), apology.
    split; [reflexivity|]. split; [left; reflexivity|]. split.
    + intros e' [H|[t [H _]]]; [|discriminate H].
      injection H as <-. split; reflexivity.
    + intros _. discriminate.
  - destruct (select r intents t) as [e|s] eqn:Hs.
    + exists (error_shown e), apology.
      split; [reflexivity|]. split; [left; reflexivity|]. split.
      * intros e' [H|[t' [H H']]]; [discriminate H|].
        injection H as <-. rewrite Hs in H'. injection H' as <-.
        split; reflexivity.
      * intros _. discriminate.
    + exists [], s. split; [reflexivity|].
      pose proof (select_In r intents t s Hs) as Hmem.
      split; [tauto|]. split.
      * intros e [H|[t' [H H']]]; [discriminate H|].
        injection H as <-. rewrite Hs in H'. discriminate H'.
      * intros Hblank ->. destruct Hmem as [[intent [Hin Hr]]|Hfb].
        -- exact (Hblank intent Hin Hr).
        -- destruct Hfb as [H|[H|[H|[]]]]; discriminate H.
Qed.

End Responses.

(** C3, as stated, fails: the catalog [blank_response] lists the empty
    string as the only response of "greeting"; the input "hello", one of its
    patterns, is answered with the empty string. *)
Lemma chatbot_response_counterexample :
  @run ascii_ops recall_sklearn None (Document (Some blank_response)) 0 "hello"
    = ([], Returned "") /\
  ~ (forall (so : StrOps) (sk : Sklearn) (vectorizer : Vectorizer) (clf : Classifier)
            (intents : list IntentRecord) (r : nat) (user_input : string),
        exists shown s,
          chatbot_response vectorizer clf intents r user_input = (shown, Returned s) /\
          s <> "").
Proof.
  split; [reflexivity|].
  intros claim.
  destruct (claim ascii_ops recall_sklearn tt [("hello", "greeting")]
                  blank_response 0 "hello") as [shown [s [Hrun Hne]]].
  apply Hne. vm_compute in Hrun. congruence.
Qed.

(** A failing [transform] is answered with the apology. *)
Example chatbot_response_failing_transform :
  @chatbot_response ascii_ops failing_sklearn tt tt scenario 3 "hello"
  = (["Error generating response: transform failed"], Returned apology).
Proof. reflexivity. Qed.

(** ** C4: the training set *)

Section Training.
Context {so : StrOps} {sk : Sklearn}.

(** The loop of lines 63-65 from any pair of accumulators. *)
Lemma training_fold (intents : list IntentRecord) (acc : list string * list string) :
  fold_left training_step intents acc =
  (fst acc ++ flat_map (fun i => repeat (tag i) (List.length (patterns i))) intents,
   snd acc ++ flat_map (fun i => map lower (patterns i)) intents).
Proof.
  revert acc. induction intents as [|i rest IH]; intros [tags texts]; simpl.
  - now rewrite !app_nil_r.
  - rewrite IH. simpl. now rewrite <- !app_assoc.
Qed.

Lemma training_set_tags (intents : list IntentRecord) :
  fst (training_set intents) =
  flat_map (fun i => repeat (tag i) (List.length (patterns i))) intents.
Proof. unfold training_set. rewrite training_fold. reflexivity. Qed.

Lemma training_set_texts (intents : list IntentRecord) :
  snd (training_set intents) = flat_map (fun i => map lower (patterns i)) intents.
Proof. unfold training_set. rewrite training_fold. reflexivity. Qed.

Lemma combine_append {A B} (l1 l2 : list A) (m1 m2 : list B) :
  List.length l1 = List.length m1 ->
  combine (l1 ++ l2) (m1 ++ m2) = combine l1 m1 ++ combine l2 m2.
Proof.
  revert m1. induction l1 as [|a l1 IH]; intros [|b m1] Hlen; simpl in *;
    try discriminate; [reflexivity|].
  f_equal. apply IH. lia.
Qed.

Lemma combine_repeat {A B} (f : A -> B) (l : list A) (b : B) :
  combine (map f l) (repeat b (List.length l)) = map (fun a => (f a, b)) l.
Proof. induction l as [|a l IH]; simpl; [reflexivity|now rewrite IH]. Qed.

Lemma nth_error_combine {A B} (l : list A) (m : list B) (i : nat) (a : A) (b : B) :
  nth_error l i = Some a -> nth_error m i = Some b ->
  nth_error (combine l m) i = Some (a, b).
Proof.
  revert m i. induction l as [|x l IH]; intros [|y m] [|i] Hl Hm; simpl in *;
    try discriminate.
  - congruence.
  - apply IH; assumption.
Qed.

Lemma training_set_lengths (intents : list IntentRecord) :
  List.length (snd (training_set intents)) = List.length (fst (training_set intents)).
Proof.
  rewrite training_set_tags, training_set_texts.
  induction intents as [|i rest IH]; simpl; [reflexivity|].
  rewrite !length_app, IH, length_map, repeat_length. reflexivity.
Qed.

Lemma training_set_combine (intents : list IntentRecord) :
  combine (snd (training_set intents)) (fst (training_set intents))
  = training_pairs intents.
Proof.
  rewrite training_set_tags, training_set_texts. unfold training_pairs.
  induction intents as [|i rest IH]; simpl; [reflexivity|].
  rewrite combine_append by (now rewrite length_map, repeat_length).
  now rewrite IH, combine_repeat.
Qed.

(** C4: the lists [patterns] (the texts) and [tags] (the labels) built by
    [initialize_models] have the same length, position by position they are
    the pairs (lower-cased pattern, tag of its record) in catalog order,
    and a record with N patterns contributes exactly N of these pairs, one
    per pattern. *)
Theorem training_set_pairs (intents : list IntentRecord) :
  let texts := snd (training_set intents) in
  let labels := fst (training_set intents) in
  List.length texts = List.length labels /\
  combine texts labels = training_pairs intents /\
  (forall i text, nth_error texts i = Some text ->
     exists label, nth_error labels i = Some label /\
                   nth_error (training_pairs intents) i = Some (text, label)) /\
  (forall before rcd after, intents = before ++ rcd :: after ->
     training_pairs intents =
       training_pairs before
       ++ map (fun p => (lower p, tag rcd)) (patterns rcd)
       ++ training_pairs after /\
     List.length (map (fun p => (lower p, tag rcd)) (patterns rcd))
       = List.length (patterns rcd)).
Proof.
  intros texts labels.
  pose proof (training_set_lengths intents) as Hlen.
  pose proof (training_set_combine intents) as Hcomb.
  fold texts labels in Hlen, Hcomb.
  split; [exact Hlen|]. split; [exact Hcomb|]. split.
  - intros i text Hi.
    assert (Hlt : i < List.length labels).
    { rewrite <- Hlen. apply nth_error_Some. congruence. }
    destruct (nth_error labels i) as [label|] eqn:Hl.
    + exists label. split; [reflexivity|].
      rewrite <- Hcomb. apply nth_error_combine; assumption.
    + apply nth_error_None in Hl. lia.
  - intros before rcd after ->. split.
    + unfold training_pairs. rewrite flat_map_app. reflexivity.
    + apply length_map.
Qed.

End Training.

(** ** C7: no serving without fitted models *)

Section Startup.
Context {so : StrOps} {sk : Sklearn}.

(** The guard of lines 67-69. *)
Lemma fit_models_empty (intents : list IntentRecord) :
  fst (training_set intents) = [] ->
  fit_models intents = (no_training_data, Stopped).
Proof.
  unfold fit_models. destruct (training_set intents) as [tags texts].
  simpl. intros ->. reflexivity.
Qed.

Lemma fit_models_returned (intents : list IntentRecord) shown models :
  fit_models intents = (shown, Returned models) ->
  fst (training_set intents) <> [] /\
  fitted_on models (snd (training_set intents)) (fst (training_set intents)).
Proof.
  unfold fit_models, fitted_on.
  destruct (training_set intents) as [tags texts]. simpl.
  destruct tags as [|t tags]; [discriminate|].
  destruct texts as [|x texts]; [discriminate|]. simpl.
  destruct (fit_transform (x :: texts)) as [e|[v X]] eqn:Hv; [discriminate|]. simpl.
  destruct (fit X (t :: tags)) as [e|m] eqn:Hm; [discriminate|]. simpl.
  intros H. injection H as _ <-. split; [discriminate|].
  exists X. split; [reflexivity|exact Hm].
Qed.

Lemma load_intents_returned (file : intents_file) shown intents :
  load_intents file = (shown, Returned intents) -> intents = source_records file.
Proof.
  destruct file as [| |[[|i rest]|]]; simpl; intros H; inversion H; reflexivity.
Qed.

(** At the start of a process (empty cache) an empty training set stops
    the script before line 78. *)
Lemma startup_empty (file : intents_file) :
  fst (training_set (source_records file)) = [] ->
  exists shown, startup None file = (shown, Stopped).
Proof.
  intros Hempty. unfold startup.
  destruct file as [| |[[|i rest]|]]; simpl in *;
    try (eexists; reflexivity);
    try (rewrite (fit_models_empty [] eq_refl); eexists; reflexivity).
  rewrite (fit_models_empty (i :: rest) Hempty). eexists. reflexivity.
Qed.

Lemma cache_after_ok cache (intents : list IntentRecord) :
  cache_ok cache -> cache_ok (cache_after cache intents).
Proof.
  destruct cache as [models|]; simpl; [trivial|]. intros _.
  destruct (fit_models intents) as [shown [models| |e]] eqn:Hfit; simpl; trivial.
  exists intents. eapply fit_models_returned. exact Hfit.
Qed.

Lemma cache_of_run_ok cache (file : intents_file) :
  cache_ok cache -> cache_ok (cache_of_run cache file).
Proof.
  intros Hok. unfold cache_of_run.
  destruct (load_intents file) as [shown [intents| |e]]; trivial.
  apply cache_after_ok. exact Hok.
Qed.

(** The cache of a process holds fitted models or nothing, whatever the
    runs before. *)
Lemma process_cache_ok (files : list intents_file) : cache_ok (process_cache files).
Proof.
  unfold process_cache.
  assert (H : forall cache, cache_ok cache -> cache_ok (fold_left cache_of_run files cache)).
  { induction files as [|f rest IH]; simpl; intros cache Hok; [exact Hok|].
    apply IH, cache_of_run_ok, Hok. }
  apply H. exact I.
Qed.

Lemma startup_returned cache (file : intents_file) shown started :
  cache_ok cache ->
  startup cache file = (shown, Returned started) ->
  well_fitted (snd started).
Proof.
  intros Hok Hs. unfold startup in Hs.
  apply bind_returned in Hs. destruct Hs as [s1 [intents [s2 [_ [Hs _]]]]].
  apply bind_returned in Hs. destruct Hs as [s3 [models [s4 [Hinit [Hret _]]]]].
  injection Hret as _ <-. simpl.
  destruct cache as [cached|]; simpl in Hinit.
  - injection Hinit as _ <-. exact Hok.
  - exists intents. eapply fit_models_returned. exact Hinit.
Qed.

(** A run that answers went through [startup]. *)
Lemma run_returned cache (file : intents_file) (r : nat) (user_input : string) shown s :
  run cache file r user_input = (shown, Returned s) ->
  exists shown' started, startup cache file = (shown', Returned started).
Proof.
  unfold run. intros H. apply bind_returned in H.
  destruct H as [s1 [started [s2 [Hs _]]]]. eauto.
Qed.

(** C7: when the source yields an empty training set (file missing, JSON
    malformed, [intents] absent or empty, records without patterns), the
    script of a starting process stops in [startup] with [st.stop()] and
    answers no input.  In every run of a process, whatever the runs before
    it, [chatbot_response] is reached only with a vectorizer and a
    classifier that [fit_transform] and [fit] returned on a training set
    with at least one example. *)
Theorem empty_training_set_halts (file : intents_file) :
  fst (training_set (source_records file)) = [] ->
  (exists shown,
      startup None file = (shown, Stopped) /\
      forall r user_input, run None file r user_input = (shown, Stopped)) /\
  (forall earlier current shown started,
      startup (process_cache earlier) current = (shown, Returned started) ->
      well_fitted (snd started)) /\
  (forall earlier current r user_input shown s,
      run (process_cache earlier) current r user_input = (shown, Returned s) ->
      exists shown' started,
        startup (process_cache earlier) current = (shown', Returned started) /\
        well_fitted (snd started)).
Proof.
  intros Hempty. split; [|split].
  - destruct (startup_empty file Hempty) as [shown Hs].
    exists shown. split; [exact Hs|].
    intros r user_input. unfold run. apply bind_stopped. exact Hs.
  - intros earlier current shown started.
    apply startup_returned, process_cache_ok.
  - intros earlier current r user_input shown s Hrun.
    destruct (run_returned _ _ _ _ _ _ Hrun) as [shown' [started Hs]].
    exists shown', started. split; [exact Hs|].
    eapply startup_returned; [apply process_cache_ok|exact Hs].
Qed.

End Startup.

Lemma empty_training_set_halts_witness :
  fst (@training_set ascii_ops (source_records (Document (Some no_patterns)))) = [] /\
  exists shown,
    @startup ascii_ops recall_sklearn None (Document (Some no_patterns)) = (shown, Stopped) /\
    forall r user_input,
      @run ascii_ops recall_sklearn None (Document (Some no_patterns)) r user_input
      = (shown, Stopped).
Proof.
  split; [reflexivity|].
  exact (proj1 (@empty_training_set_halts ascii_ops recall_sklearn
                  (Document (Some no_patterns)) eq_refl)).
Defined.

(** ** C9: recall of the training patterns *)


Section Recall.
Context {so : StrOps} {sk : Sklearn}.

(** The predicted tag is a function of the lower-cased input. *)
Lemma predicted_tag_lower (vectorizer : Vectorizer) (clf : Classifier) (a b : string) :
  lower a = lower b ->
  predicted_tag vectorizer clf a = predicted_tag vectorizer clf b.
Proof. unfold predicted_tag. intros ->. reflexivity. Qed.


End Recall.



(** ** C8 and C10: the conversation log *)

Section Log.
Context {pd : Pandas}.


(** A column of missing-value markers is read as missing values, whatever
    dtype pandas gives the column. *)
Lemma read_column_na (col : list string) :
  (forall s, In s col -> is_na s = true) ->
  read_column col = map (fun _ => NaN) col.
Proof.
  intros Hna. unfold read_column.
  destruct (retype _ _) as [f|]; apply map_ext_in; intros s Hs; now rewrite (Hna s Hs).
Qed.


Lemma combine_map {A B C} (f : A -> B) (g : A -> C) (l : list A) :
  combine (map f l) (map g l) = map (fun a => (f a, g a)) l.
Proof. induction l as [|a l IH]; simpl; [reflexivity|now rewrite IH]. Qed.


(** C8 at the input "NA": the turn is written as typed, the history page
    reads its [User] field back as a missing value, and the next
    [save_conversation] rewrites the stored turn with an empty [User]
    field.  This holds whatever dtype pandas infers for the columns. *)
Theorem save_conversation_rewrites_NA (t1 t2 : string) :
  save_conversation t1 "NA" "ok" None = Some [ mkTurn "NA" "ok" t1 ] /\
  (exists a t,
      display_chat_history (save_conversation t1 "NA" "ok" None) = Some [ (NaN, a, t) ]) /\
  (exists rows,
      save_conversation t2 "hi" "hello" (save_conversation t1 "NA" "ok" None) = Some rows /\
      map User rows = [ ""; "hi" ]).
Proof.
  split; [reflexivity|]. split.
  - unfold save_conversation, display_chat_history, read_csv. simpl.
    rewrite (read_column_na ["NA"]) by (intros s [<-|[]]; reflexivity).
    unfold read_column. simpl.
    destruct (retype _ ["ok"]), (retype _ _); simpl; eauto.
  - unfold save_conversation at 1. unfold save_conversation, read_csv. simpl.
    rewrite (read_column_na ["NA"]) by (intros s [<-|[]]; reflexivity).
    unfold read_column. simpl.
    destruct (retype _ ["ok"]), (retype _ _); simpl; eexists; split; reflexivity.
Qed.

End Log.

(** With three text columns the first turn survives only without its input. *)
Example save_conversation_NA_text_columns :
  @save_conversation text_columns "2024-05-01T10:00:01" "hi" "hello"
     (@save_conversation text_columns "2024-05-01T10:00:00" "NA" "ok" None)
  = Some [ mkTurn "" "ok" "2024-05-01T10:00:00";
           mkTurn "hi" "hello" "2024-05-01T10:00:01" ].
Proof. reflexivity. Qed.

(* ------------------------------------------------------------------ *)
(** * Further properties of the script *)

(** ** [save_conversation] and the history page on any file *)

Section LogAnyFile.
Context {pd : Pandas}.

(** A column is read cell by cell, and a marker is always read as missing. *)
Lemma read_column_cells (col : list string) :
  exists g : string -> cell,
    read_column col = map g col /\
    (forall s, is_na s = true -> g s = NaN) /\
    (forall s, is_na s = false -> g s <> NaN).
Proof.
  unfold read_column. destruct (retype _ _) as [f|].
  - exists (fun s => if is_na s then NaN else Typed (f s)).
    split; [reflexivity|]. split; intros s Hs; rewrite Hs; [reflexivity|discriminate].
  - exists (fun s => if is_na s then NaN else Str s).
    split; [reflexivity|]. split; intros s Hs; rewrite Hs; [reflexivity|discriminate].
Qed.

(** [pd.read_csv] row by row. *)
Lemma read_csv_rows (rows : list Turn) :
  exists gu ga gt : string -> cell,
    read_csv rows = map (fun t => (gu (User t), ga (Response t), gt (Timestamp t))) rows /\
    (forall s, is_na s = true -> gu s = NaN /\ ga s = NaN /\ gt s = NaN).
Proof.
  destruct (read_column_cells (map User rows)) as [gu [Hu [Hun _]]].
  destruct (read_column_cells (map Response rows)) as [ga [Ha [Han _]]].
  destruct (read_column_cells (map Timestamp rows)) as [gt [Ht [Htn _]]].
  exists gu, ga, gt. split.
  - unfold read_csv. rewrite Hu, Ha, Ht, !map_map.
    rewrite (combine_map (fun t => gu (User t)) (fun t => ga (Response t)) rows).
    rewrite <- (map_map (fun t => (gu (User t), ga (Response t)))
                        (fun p => p) rows) at 1.
    rewrite map_id.
    apply (combine_map (fun t => (gu (User t), ga (Response t)))
                       (fun t => gt (Timestamp t)) rows).
  - intros s Hs. auto.
Qed.

Lemma read_csv_length (rows : list Turn) :
  List.length (read_csv rows) = List.length rows.
Proof.
  destruct (read_csv_rows rows) as [gu [ga [gt [H _]]]].
  rewrite H. apply length_map.
Qed.



(** The history page counts the rows of the file, however their fields are
    read. *)
Theorem total_conversations_counts (file : history_file) :
  total_conversations file = option_map (@List.length Turn) file /\
  (file = None <-> display_chat_history file = None).
Proof.
  split.
  - destruct file as [rows|]; simpl; [|reflexivity].
    unfold total_conversations. simpl. now rewrite read_csv_length.
  - destruct file as [rows|]; simpl; split; intros H; try discriminate; reflexivity.
Qed.



End LogAnyFile.


(** ** What [select] can return and when it raises *)

Lemma select_answering (r : nat) (intents : list IntentRecord) (t : string) :
  select r intents t =
  match answering intents t with
  | Some rcd => choice r (responses rcd)
  | None => choice r fallback_responses
  end.
Proof.
  unfold answering. destruct (find (has_tag t) intents) as [rcd|] eqn:E.
  - apply select_first. exact E.
  - rewrite (select_fall_through r intents t E).
    destruct (find (has_tag "fallback") intents); reflexivity.
Qed.



(** Over all draws, the strings [select] returns are exactly the responses
    of the record it takes its answer from, and exactly the three built-in
    replies when there is no such record. *)
Theorem select_range (intents : list IntentRecord) (t s : string) :
  (exists r, select r intents t = inr s) <->
  In s match answering intents t with
       | Some rcd => responses rcd
       | None => fallback_responses
       end.
Proof.
  split.
  - intros [r H]. rewrite select_answering in H.
    destruct (answering intents t); exact (choice_In _ _ _ H).
  - intros H.
    destruct (answering intents t) as [rcd|] eqn:E;
      destruct (choice_reaches _ _ H) as [r Hr]; exists r;
      rewrite select_answering, E; exact Hr.
Qed.

Section CaseInsensitive.
Context {so : StrOps} {sk : Sklearn}.

(** Two inputs with the same lower-case form get the same reply and the same
    messages, draw for draw. *)
Theorem chatbot_response_case_insensitive (vectorizer : Vectorizer) (clf : Classifier)
        (intents : list IntentRecord) (r : nat) (a b : string) :
  lower a = lower b ->
  chatbot_response vectorizer clf intents r a
  = chatbot_response vectorizer clf intents r b.
Proof.
  intros H. rewrite !chatbot_response_cases.
  now rewrite (predicted_tag_lower vectorizer clf a b H).
Qed.

End CaseInsensitive.

Lemma chatbot_response_case_insensitive_witness :
  @lower ascii_ops "HeLLo" = @lower ascii_ops "hello" /\
  @chatbot_response ascii_ops recall_sklearn tt
     [("hi", "greeting"); ("hello", "greeting"); ("??", "fallback")] scenario 4 "HeLLo"
  = @chatbot_response ascii_ops recall_sklearn tt
     [("hi", "greeting"); ("hello", "greeting"); ("??", "fallback")] scenario 4 "hello".
Proof.
  split; [reflexivity|].
  apply (@chatbot_response_case_insensitive ascii_ops recall_sklearn). reflexivity.
Defined.

(** ** [load_intents], [initialize_models] and the cache *)

Section Cache.
Context {so : StrOps} {sk : Sklearn}.

(** [chatbot_response] returns, with the apology, a built-in reply or a
    response of the catalog it is given. *)
Lemma chatbot_response_reply (vectorizer : Vectorizer) (clf : Classifier)
      (intents : list IntentRecord) (r : nat) (user_input : string) :
  exists shown s,
    chatbot_response vectorizer clf intents r user_input = (shown, Returned s) /\
    (s = apology \/ In s fallback_responses \/
     exists intent, In intent intents /\ In s (responses intent)).
Proof.
  rewrite chatbot_response_cases.
  destruct (predicted_tag vectorizer clf user_input) as [e|t].
  - exists (error_shown e), apology. split; [reflexivity|]. left. reflexivity.
  - destruct (select r intents t) as [e|s] eqn:Hs.
    + exists (error_shown e), apology. split; [reflexivity|]. left. reflexivity.
    + exists [], s. split; [reflexivity|]. right.
      destruct (select_In r intents t s Hs); auto.
Qed.

Lemma in_repeat_iff {A} (a x : A) (n : nat) :
  In x (repeat a n) <-> x = a /\ n <> 0.
Proof.
  split.
  - intros H. split; [exact (repeat_spec n a x H)|]. intros ->. inversion H.
  - intros [-> Hn]. destruct n as [|n]; [contradiction|]. left. reflexivity.
Qed.

(** The labels of the training set are the tags of the records that have a
    pattern, and its texts are the lower-cased patterns: a record without
    patterns gives the classifier nothing to predict it from. *)
Theorem training_set_members (intents : list IntentRecord) :
  (forall t, In t (fst (training_set intents)) <->
             exists rcd, In rcd intents /\ tag rcd = t /\ patterns rcd <> []) /\
  (forall x, In x (snd (training_set intents)) <->
             exists rcd p, In rcd intents /\ In p (patterns rcd) /\ x = lower p).
Proof.
  rewrite training_set_tags, training_set_texts. split.
  - intros t. rewrite in_flat_map. split.
    + intros [rcd [Hin Hrep]]. apply in_repeat_iff in Hrep. destruct Hrep as [-> Hn].
      exists rcd. repeat split; [exact Hin|]. intros Hp. apply Hn. now rewrite Hp.
    + intros [rcd [Hin [<- Hp]]]. exists rcd. split; [exact Hin|].
      apply in_repeat_iff. split; [reflexivity|].
      destruct (patterns rcd); [contradiction|discriminate].
  - intros x. rewrite in_flat_map. split.
    + intros [rcd [Hin Hx]]. apply in_map_iff in Hx. destruct Hx as [p [<- Hp]].
      exists rcd, p. auto.
    + intros [rcd [p [Hin [Hp ->]]]]. exists rcd. split; [exact Hin|].
      apply in_map. exact Hp.
Qed.

Lemma fit_models_returns_iff (intents : list IntentRecord) shown models :
  fit_models intents = (shown, Returned models) <->
  shown = [] /\ fst (training_set intents) <> [] /\
  fitted_on models (snd (training_set intents)) (fst (training_set intents)).
Proof.
  pose proof (training_set_lengths intents) as Hlen.
  unfold fit_models, fitted_on.
  destruct (training_set intents) as [tags texts]. simpl in *.
  destruct tags as [|t tags]; simpl.
  - split; [discriminate|]. intros [_ [H _]]. contradiction.
  - destruct texts as [|x texts]; [discriminate Hlen|]. simpl.
    destruct (fit_transform (x :: texts)) as [e|[v X]] eqn:Hv; simpl.
    + split; [discriminate|]. intros [_ [_ [X [H _]]]]. discriminate H.
    + destruct (fit X (t :: tags)) as [e|m] eqn:Hm; simpl.
      * split; [discriminate|]. intros [_ [_ [X' [H H']]]].
        injection H as _ <-. rewrite Hm in H'. discriminate H'.
      * split.
        -- intros H. injection H as <- <-. split; [reflexivity|].
           split; [discriminate|]. exists X. split; [reflexivity|exact Hm].
        -- intros [-> [_ [X' [H H']]]]. destruct models as [v' m'].
           simpl in *. injection H as <- <-. rewrite Hm in H'.
           injection H' as <-. reflexivity.
Qed.

(** A new process gets past the module level exactly when intents.json is a
    document with a list of records that yields at least one training
    example and the library fits it; the catalog is then that list, the
    models are the fitted ones and no message is shown. *)
Theorem startup_returns_iff (file : intents_file) shown intents models :
  startup None file = (shown, Returned (intents, models)) <->
  shown = [] /\ file = Document (Some intents) /\
  fst (training_set intents) <> [] /\
  fitted_on models (snd (training_set intents)) (fst (training_set intents)).
Proof.
  split.
  - intros Hs. unfold startup in Hs.
    apply bind_returned in Hs. destruct Hs as [s1 [loaded [s2 [Hload [Hs ->]]]]].
    apply bind_returned in Hs. destruct Hs as [s3 [fitted [s4 [Hinit [Hret ->]]]]].
    injection Hret as <- <- <-. simpl in Hinit.
    apply fit_models_returns_iff in Hinit. destruct Hinit as [-> [Hne Hfit]].
    destruct file as [| |[[|i rest]|]]; simpl in Hload; try discriminate.
    + injection Hload as <- <-. exfalso. apply Hne. reflexivity.
    + injection Hload as <- <-. exfalso. apply Hne. reflexivity.
    + injection Hload as <- <-. repeat split; assumption.
  - intros [-> [-> [Hne Hfit]]].
    assert (Hfm : fit_models intents = ([], Returned models)).
    { apply fit_models_returns_iff. auto. }
    destruct intents as [|i rest]; [exfalso; apply Hne; reflexivity|].
    unfold startup. simpl. rewrite Hfm. reflexivity.
Qed.

(** An exception of [fit_transform] or [fit] is not caught: the run of a new
    process ends with it before any page is drawn, and nothing is cached, so
    the next run fits again. *)
Theorem fit_errors_propagate (intents : list IntentRecord) (e : exn)
        (r : nat) (user_input : string) :
  fst (training_set intents) <> [] ->
  (fit_transform (snd (training_set intents)) = inl e \/
   exists v X, fit_transform (snd (training_set intents)) = inr (v, X) /\
               fit X (fst (training_set intents)) = inl e) ->
  startup None (Document (Some intents)) = ([], Uncaught e) /\
  run None (Document (Some intents)) r user_input = ([], Uncaught e) /\
  cache_of_run None (Document (Some intents)) = None.
Proof.
  intros Hne Hraise.
  assert (Hfm : fit_models intents = ([], Uncaught e)).
  { pose proof (training_set_lengths intents) as Hlen.
    unfold fit_models. destruct (training_set intents) as [tags texts]. simpl in *.
    destruct tags as [|t tags]; [contradiction|].
    destruct texts as [|x texts]; [discriminate Hlen|]. simpl.
    destruct Hraise as [H|[v [X [H H']]]]; rewrite H; simpl; [reflexivity|].
    rewrite H'. reflexivity. }
  destruct intents as [|i rest]; [exfalso; apply Hne; reflexivity|].
  unfold run, startup, cache_of_run. simpl. rewrite Hfm. auto.
Qed.

(** Once a pair of models is cached it is the pair of every later run,
    whatever intents.json becomes: there is no retraining in a process. *)
Theorem cache_is_permanent (models : Vectorizer * Classifier) :
  (forall files, fold_left cache_of_run files (Some models) = Some models) /\
  (forall file shown started,
      startup (Some models) file = (shown, Returned started) ->
      snd started = models /\ fst started = source_records file).
Proof.
  split.
  - induction files as [|f rest IH]; simpl; [reflexivity|].
    assert (H : cache_of_run (Some models) f = Some models).
    { unfold cache_of_run. destruct (load_intents f) as [s [i| |e]]; reflexivity. }
    rewrite H. exact IH.
  - intros file shown started Hs. unfold startup in Hs.
    apply bind_returned in Hs. destruct Hs as [s1 [loaded [s2 [Hload [Hs _]]]]].
    simpl in Hs. injection Hs as _ <-. simpl. split; [reflexivity|].
    eapply load_intents_returned. exact Hload.
Qed.

(** With cached models a run answers even when intents.json is missing or
    is not JSON: the catalog is then empty and the reply is one of the three
    built-in replies (the apology if the library raises).  A document
    without intents stops the run all the same. *)
Theorem cached_models_outlive_catalog (models : Vectorizer * Classifier)
        (r : nat) (user_input : string) :
  (forall file, file = FileMissing \/ file = InvalidJSON ->
     exists shown s,
       run (Some models) file r user_input = (shown, Returned s) /\
       (In s fallback_responses \/ s = apology)) /\
  (forall doc, doc = None \/ doc = Some [] ->
     run (Some models) (Document doc) r user_input
     = (["The 'intents.json' file is empty or improperly formatted."], Stopped)).
Proof.
  split.
  - intros file Hfile.
    destruct (chatbot_response_reply (fst models) (snd models) [] r user_input)
      as [shown [s [Hrun Hmem]]].
    assert (Hs : In s fallback_responses \/ s = apology).
    { destruct Hmem as [->|[H|[intent [[] _]]]]; auto. }
    destruct Hfile as [-> | ->]; unfold run, startup; simpl; rewrite Hrun;
      eexists; exists s; (split; [reflexivity|exact Hs]).
  - intros doc [-> | ->]; reflexivity.
Qed.

End Cache.

Lemma fit_errors_propagate_witness :
  fst (@training_set ascii_ops one_class) <> [] /\
  @startup ascii_ops failing_fit_sklearn None (Document (Some one_class))
  = ([], Uncaught (LibraryError "This solver needs samples of at least 2 classes")).
Proof.
  assert (Hne : fst (@training_set ascii_ops one_class) <> []) by discriminate.
  split; [exact Hne|].
  refine (proj1 (@fit_errors_propagate ascii_ops failing_fit_sklearn one_class
                   (LibraryError "This solver needs samples of at least 2 classes")
                   0 "hello" Hne _)).
  right. exists tt, ["hi"; "hello"]. split; reflexivity.
Defined.

(** ** The chat page, the clear button and the two histories *)

Section Session.
Context {so : StrOps} {sk : Sklearn} {pd : Pandas}.










End Session.


